(** * Ponca: curvature estimators and the kd-tree range iterator

    A shallow embedding of

    - [Ponca/src/Fitting/curvatureEstimation.h]: the classes
      [BaseCurvatureEstimator], [NormalCovarianceCurvature] and
      [ProjectedNormalCovarianceCurvature];
    - [Ponca/src/SpatialPartitioning/KdTree/Iterator/kdTreeRangePointIterator.hpp]:
      the operators of [KdTreeRangePointIterator].

    The header declares the estimators' [init], [addNeighbor] and [finalize]
    and defines their accessors inline; the bodies of the three declared
    methods live in [curvatureEstimation.hpp], which the header includes.
    Definitions that stand for those bodies are marked as modelled from the
    specification; they compute on exact rationals, and take the eigensolver,
    the rejection predicate and the degeneracy check as parameters. *)

From Stdlib Require Import ZArith QArith Qabs Bool String List Lia Lqa.
Import ListNotations.

Local Open Scope Z_scope.

(* ================================================================== *)
(** * Scalars *)

(** The operations the estimators use on [Base::Scalar].  The accessors of
    [BaseCurvatureEstimator] need nothing else, so what is proved about them
    holds for any scalar type (float, double, an exact field ...). *)
Class ScalarOps (Scalar : Type) : Type := {
  sc_zero : Scalar;                        (* Scalar(0)            *)
  sc_two  : Scalar;                        (* the literal 2.       *)
  sc_add  : Scalar -> Scalar -> Scalar;    (* operator+            *)
  sc_mul  : Scalar -> Scalar -> Scalar;    (* operator*            *)
  sc_div  : Scalar -> Scalar -> Scalar     (* operator/            *)
}.

(** Exact rationals: the scalar type of the covariance analysis below. *)
#[export] Instance Q_ScalarOps : ScalarOps Q := {|
  sc_zero := 0%Q;
  sc_two  := 2%Q;
  sc_add  := Qplus;
  sc_mul  := Qmult;
  sc_div  := Qdiv
|}.

(* ================================================================== *)
(** * Template instantiation and [static_assert] *)

Module Template.

(** What instantiating a class template yields: the class, or the
    diagnostic of a failed [static_assert].  No object of a rejected
    instantiation exists, so none of its methods can run. *)
Inductive Instantiation (A : Type) : Type :=
| Instantiated (a : A)
| StaticAssertFailed (msg : string).
Arguments Instantiated {A} a.
Arguments StaticAssertFailed {A} msg.

Definition static_assert {A : Type} (cond : bool) (msg : string) (body : A)
  : Instantiation A :=
  if cond then Instantiated body else StaticAssertFailed msg.

(** A class deriving from an instantiated base. *)
Definition derive {A B : Type} (f : A -> B) (base : Instantiation A)
  : Instantiation B :=
  match base with
  | Instantiated a => Instantiated (f a)
  | StaticAssertFailed msg => StaticAssertFailed msg
  end.

End Template.

(* ================================================================== *)
(** * BaseCurvatureEstimator (curvatureEstimation.h, lines 14-88) *)

Module Base.
Section BaseCurvatureEstimator.

Context {Scalar : Type} {ops : ScalarOps Scalar}.
Variable VectorType : Type.

(** The four protected members. *)
Record BaseCurvatureEstimator : Type := mkBase {
  m_k1 : Scalar;       (* principal curvature with highest absolute magnitude  *)
  m_k2 : Scalar;       (* principal curvature with smallest absolute magnitude *)
  m_v1 : VectorType;   (* direction associated to m_k1 *)
  m_v2 : VectorType    (* direction associated to m_k2 *)
}.

(** [BaseCurvatureEstimator() : m_k1(0), m_k2(0) {}].  The two vectors are
    default-constructed; the coefficients they start with are arguments. *)
Definition ctor (v1 v2 : VectorType) : BaseCurvatureEstimator :=
  mkBase sc_zero sc_zero v1 v2.

Definition k1 (e : BaseCurvatureEstimator) : Scalar := m_k1 e.
Definition k2 (e : BaseCurvatureEstimator) : Scalar := m_k2 e.
Definition k1Direction (e : BaseCurvatureEstimator) : VectorType := m_v1 e.
Definition k2Direction (e : BaseCurvatureEstimator) : VectorType := m_v2 e.

(** [return (m_k1 + m_k2)/2.;] *)
Definition kMean (e : BaseCurvatureEstimator) : Scalar :=
  sc_div (sc_add (m_k1 e) (m_k2 e)) sc_two.

(** [return m_k1 * m_k2;] *)
Definition GaussianCurvature (e : BaseCurvatureEstimator) : Scalar :=
  sc_mul (m_k1 e) (m_k2 e).

(** [static_assert ( DataPoint::Dim == 3, "BaseCurvatureEstimator is only
    valid in 3D");] guards every instantiation of the class template. *)
Definition static_assert_msg : string :=
  "BaseCurvatureEstimator is only valid in 3D".

Definition instantiate (Dim : Z) (v1 v2 : VectorType)
  : Template.Instantiation BaseCurvatureEstimator :=
  Template.static_assert (Dim =? 3) static_assert_msg (ctor v1 v2).

End BaseCurvatureEstimator.
Arguments m_k1 {Scalar VectorType} _.
Arguments m_k2 {Scalar VectorType} _.
Arguments m_v1 {Scalar VectorType} _.
Arguments m_v2 {Scalar VectorType} _.
Arguments mkBase {Scalar VectorType} _ _ _ _.
Arguments k1 {Scalar VectorType} _.
Arguments k2 {Scalar VectorType} _.
Arguments k1Direction {Scalar VectorType} _.
Arguments k2Direction {Scalar VectorType} _.
Arguments kMean {Scalar ops VectorType} _.
Arguments GaussianCurvature {Scalar ops VectorType} _.
Arguments ctor {Scalar ops VectorType} _ _.
Arguments instantiate {Scalar ops VectorType} _ _ _.
End Base.

(* ================================================================== *)
(** * KdTreeRangePointIterator (kdTreeRangePointIterator.hpp) *)

Module KdTreeIterator.
Section Iterator.

(** What [m_query] points to: the range query that owns the iterator. *)
Variable QueryRef : Type.

(** The two members the operators use: [m_query] (dereferenced by
    [operator++]) and the [int] [m_index]. *)
Record KdTreeRangePointIterator : Type := mkIterator {
  m_query : QueryRef;
  m_index : Z
}.

(** [operator !=]: [return m_index != other.m_index;] *)
Definition operator_neq (a other : KdTreeRangePointIterator) : bool :=
  negb (m_index a =? m_index other).

(** [operator *]: [return m_index;] *)
Definition operator_deref (a : KdTreeRangePointIterator) : Z := m_index a.

(** Both forms of [operator ++] hand the iterator to [advance] of the query
    behind [m_query], which moves it. *)
Variable advance : QueryRef -> KdTreeRangePointIterator -> KdTreeRangePointIterator.

Definition operator_incr (a : KdTreeRangePointIterator) : KdTreeRangePointIterator :=
  advance (m_query a) a.

Definition operator_incr_postfix (a : KdTreeRangePointIterator)
  : KdTreeRangePointIterator :=
  advance (m_query a) a.

End Iterator.
Arguments mkIterator {QueryRef} _ _.
Arguments m_query {QueryRef} _.
Arguments m_index {QueryRef} _.
Arguments operator_neq {QueryRef} _ _.
Arguments operator_deref {QueryRef} _.
End KdTreeIterator.


(* ================================================================== *)
(** * Vectors and matrices

    [Scalar] is taken to be the exact rationals; [VectorType] and
    [MatrixType] are the fixed-size column-major types of the linear-algebra
    library, written out componentwise. *)

Module Linalg.
Local Open Scope Q_scope.

Record Vec3 : Type := mkVec3 { vx : Q; vy : Q; vz : Q }.

(** [Eigen::Matrix<Scalar,3,3>], by columns. *)
Record Mat3 : Type := mkMat3 { col0 : Vec3; col1 : Vec3; col2 : Vec3 }.

(** [Vector2], [Mat22] and [Mat32] of the projected estimator. *)
Record Vec2 : Type := mkVec2 { ux : Q; uy : Q }.
Record Mat22 : Type := mkMat22 { c0 : Vec2; c1 : Vec2 }.
Record Mat32 : Type := mkMat32 { tu : Vec3; tv : Vec3 }.

Inductive Idx3 : Type := I0 | I1 | I2.
Inductive Idx2 : Type := J0 | J1.

(** Coefficient and column access: [v(i)] and [M.col(i)]. *)
Definition coeff3 (v : Vec3) (i : Idx3) : Q :=
  match i with I0 => vx v | I1 => vy v | I2 => vz v end.

Definition col3 (M : Mat3) (i : Idx3) : Vec3 :=
  match i with I0 => col0 M | I1 => col1 M | I2 => col2 M end.

Definition coeff2 (v : Vec2) (i : Idx2) : Q :=
  match i with J0 => ux v | J1 => uy v end.

Definition col2_ (M : Mat22) (i : Idx2) : Vec2 :=
  match i with J0 => c0 M | J1 => c1 M end.

(** ** Three dimensions *)

Definition v3_zero : Vec3 := mkVec3 0 0 0.

Definition v3_add (a b : Vec3) : Vec3 :=
  mkVec3 (vx a + vx b) (vy a + vy b) (vz a + vz b).

Definition v3_sub (a b : Vec3) : Vec3 :=
  mkVec3 (vx a - vx b) (vy a - vy b) (vz a - vz b).

Definition v3_scale (k : Q) (a : Vec3) : Vec3 :=
  mkVec3 (k * vx a) (k * vy a) (k * vz a).

Definition v3_div (a : Vec3) (k : Q) : Vec3 :=
  mkVec3 (vx a / k) (vy a / k) (vz a / k).

Definition dot3 (a b : Vec3) : Q := vx a * vx b + vy a * vy b + vz a * vz b.

Definition cross3 (a b : Vec3) : Vec3 :=
  mkVec3 (vy a * vz b - vz a * vy b)
         (vz a * vx b - vx a * vz b)
         (vx a * vy b - vy a * vx b).

(** [a * b.transpose()]: column [j] is [a] scaled by the [j]-th coefficient
    of [b]. *)
Definition outer3 (a b : Vec3) : Mat3 :=
  mkMat3 (v3_scale (vx b) a) (v3_scale (vy b) a) (v3_scale (vz b) a).

Definition m3_zero : Mat3 := mkMat3 v3_zero v3_zero v3_zero.

Definition m3_add (A B : Mat3) : Mat3 :=
  mkMat3 (v3_add (col0 A) (col0 B)) (v3_add (col1 A) (col1 B))
         (v3_add (col2 A) (col2 B)).

Definition m3_sub (A B : Mat3) : Mat3 :=
  mkMat3 (v3_sub (col0 A) (col0 B)) (v3_sub (col1 A) (col1 B))
         (v3_sub (col2 A) (col2 B)).

Definition m3_scale (k : Q) (A : Mat3) : Mat3 :=
  mkMat3 (v3_scale k (col0 A)) (v3_scale k (col1 A)) (v3_scale k (col2 A)).

(** Matrix-vector product [A * v]. *)
Definition m3_mulv (A : Mat3) (v : Vec3) : Vec3 :=
  v3_add (v3_add (v3_scale (vx v) (col0 A)) (v3_scale (vy v) (col1 A)))
         (v3_scale (vz v) (col2 A)).

(** Equality of coefficients as rationals. *)
Definition v3_eq (a b : Vec3) : Prop :=
  vx a == vx b /\ vy a == vy b /\ vz a == vz b.

Definition m3_eq (A B : Mat3) : Prop :=
  v3_eq (col0 A) (col0 B) /\ v3_eq (col1 A) (col1 B) /\ v3_eq (col2 A) (col2 B).

(** ** Two dimensions *)

Definition v2_zero : Vec2 := mkVec2 0 0.

Definition v2_add (a b : Vec2) : Vec2 := mkVec2 (ux a + ux b) (uy a + uy b).

Definition v2_sub (a b : Vec2) : Vec2 := mkVec2 (ux a - ux b) (uy a - uy b).

Definition v2_scale (k : Q) (a : Vec2) : Vec2 := mkVec2 (k * ux a) (k * uy a).

Definition v2_div (a : Vec2) (k : Q) : Vec2 := mkVec2 (ux a / k) (uy a / k).

Definition outer2 (a b : Vec2) : Mat22 :=
  mkMat22 (v2_scale (ux b) a) (v2_scale (uy b) a).

Definition m22_zero : Mat22 := mkMat22 v2_zero v2_zero.

Definition m22_add (A B : Mat22) : Mat22 :=
  mkMat22 (v2_add (c0 A) (c0 B)) (v2_add (c1 A) (c1 B)).

Definition m22_sub (A B : Mat22) : Mat22 :=
  mkMat22 (v2_sub (c0 A) (c0 B)) (v2_sub (c1 A) (c1 B)).

Definition m22_scale (k : Q) (A : Mat22) : Mat22 :=
  mkMat22 (v2_scale k (c0 A)) (v2_scale k (c1 A)).

Definition m32_zero : Mat32 := mkMat32 v3_zero v3_zero.

(** [m_tframe.transpose() * n]: the coordinates of [n] in the frame. *)
Definition m32_tmulv (F : Mat32) (n : Vec3) : Vec2 :=
  mkVec2 (dot3 (tu F) n) (dot3 (tv F) n).

(** [m_tframe * e]: the combination of the two frame vectors weighted by the
    coordinates of [e]. *)
Definition m32_mulv (F : Mat32) (e : Vec2) : Vec3 :=
  v3_add (v3_scale (ux e) (tu F)) (v3_scale (uy e) (tv F)).

(** ** Choosing among eigenvalues by magnitude

    Modelled from the spec: the selection rule of [finalize], the eigenvalue
    of largest magnitude for [k1] and one of smallest magnitude for [k2]. *)

(** [abs_lt a b] is [|a| < |b|]. *)
Definition abs_lt (a b : Q) : bool := negb (Qle_bool (Qabs b) (Qabs a)).

(** Index of an eigenvalue of largest magnitude (the first one, on ties). *)
Definition argmax_abs3 (l : Vec3) : Idx3 :=
  let i := if abs_lt (vx l) (vy l) then I1 else I0 in
  if abs_lt (coeff3 l i) (vz l) then I2 else i.

(** The two indices other than [i], in increasing order. *)
Definition others3 (i : Idx3) : Idx3 * Idx3 :=
  match i with I0 => (I1, I2) | I1 => (I0, I2) | I2 => (I0, I1) end.

(** Index, other than [i], of an eigenvalue of smallest magnitude. *)
Definition argmin_abs3_except (l : Vec3) (i : Idx3) : Idx3 :=
  let (a, b) := others3 i in
  if abs_lt (coeff3 l b) (coeff3 l a) then b else a.

Definition argmax_abs2 (l : Vec2) : Idx2 :=
  if abs_lt (ux l) (uy l) then J1 else J0.

Definition other2 (i : Idx2) : Idx2 :=
  match i with J0 => J1 | J1 => J0 end.

End Linalg.


(* ================================================================== *)
(** * The fitting protocol *)

Module Fitting.
Import Linalg.

(** Modelled from the spec: the enumeration [FIT_RESULT] returned by
    [finalize], declared in [defines.h], which the header includes.  The spec
    names its four values. *)
Inductive FIT_RESULT : Type := STABLE | UNSTABLE | NEED_OTHER_PASS | UNDEFINED.

(** Modelled from the spec: the template parameter [DataPoint], a neighbor
    sample made of a position and a normal. *)
Record DataPoint : Type := mkPoint { pos : Vec3; normal : Vec3 }.

(** Modelled from the spec: the template parameter [_WFunctor], a map from
    the evaluation position and a sample to a weight. *)
Definition WFunctor : Type := Vec3 -> DataPoint -> Q.


(** Modelled from the spec: the part of the inherited base [T] the
    estimators rely on, the stored evaluation position and the count of
    accepted samples of the current pass.  The estimator classes declare
    neither member themselves. *)
Record FittingState : Type := mkFit { m_evalPos : Vec3; m_nbNeighbors : nat }.

Definition count_neighbor (f : FittingState) : FittingState :=
  mkFit (m_evalPos f) (S (m_nbNeighbors f)).

(** The results held by the estimators: [BaseCurvatureEstimator] over
    rational scalars and 3D vectors. *)
Definition Results : Type := @Base.BaseCurvatureEstimator Q Vec3.

(** The sample count as a scalar. *)
Definition scalar_of_count (n : nat) : Q := inject_Z (Z.of_nat n).

End Fitting.

(* ================================================================== *)
(** * The covariance of normals, in the spec's words

    These definitions follow the formulas of the spec; the estimator below
    works on running sums instead, and the two are compared. *)

Module Covariance.
Import Linalg.
Local Open Scope Q_scope.

(** [sum of n_i]. *)
Definition normals_sum (ns : list Vec3) : Vec3 := fold_right v3_add v3_zero ns.

(** [c = mean(n_i)]. *)
Definition mean_normal (ns : list Vec3) : Vec3 :=
  v3_div (normals_sum ns) (Fitting.scalar_of_count (length ns)).

(** [sum of n_i n_i^T]. *)
Definition outer_sum (ns : list Vec3) : Mat3 :=
  fold_right (fun n acc => m3_add (outer3 n n) acc) m3_zero ns.

(** [sum of (n_i - c)(n_i - c)^T] for a given [c]. *)
Definition covariance_about (c : Vec3) (ns : list Vec3) : Mat3 :=
  fold_right (fun n acc => m3_add (outer3 (v3_sub n c) (v3_sub n c)) acc)
             m3_zero ns.

(** The spec's [cov = sum of (n_i - c)(n_i - c)^T], [c = mean(n_i)]. *)
Definition centered_covariance (ns : list Vec3) : Mat3 :=
  covariance_about (mean_normal ns) ns.


(** Modelled from the spec: the contract of the symmetric eigensolver on a
    matrix [M], for a result [(eigenvalues, eigenvectors)]: ascending
    eigenvalues, and every column a unit eigenvector for the eigenvalue of
    the same index. *)
Definition eigenpair3 (M : Mat3) (l : Q) (v : Vec3) : Prop :=
  v3_eq (m3_mulv M v) (v3_scale l v) /\ dot3 v v == 1.

Definition eigen_contract3 (M : Mat3) (r : Vec3 * Mat3) : Prop :=
  (vx (fst r) <= vy (fst r) /\ vy (fst r) <= vz (fst r)) /\
  forall i, eigenpair3 M (coeff3 (fst r) i) (col3 (snd r) i).

End Covariance.

(* ================================================================== *)
(** * NormalCovarianceCurvature (curvatureEstimation.h, lines 103-144) *)

Module NormalCovarianceCurvature.
Import Linalg Fitting.
Local Open Scope Q_scope.

(** The state of an instance: the inherited fitting state and results, and
    the two members the class declares ([m_solver] is the eigensolver, a
    parameter below). *)
Record state : Type := mkState {
  fit   : FittingState;
  base  : Results;
  m_cov : Mat3;      (* covariance matrix *)
  m_cog : Vec3       (* gravity center    *)
}.

(** Modelled from the spec: the minimum of accepted samples for a 3x3
    covariance. *)
Definition min_neighbors : nat := 3.

Section Methods.

(** Modelled from the spec: the rejection predicate of [addNeighbor], left to
    the implementer; [accept evalPos nei] holds when the sample is kept. *)
Variable accept : Vec3 -> DataPoint -> bool.

(** [Eigen::SelfAdjointEigenSolver<MatrixType>]: eigenvalues and the matrix
    whose columns are the eigenvectors. *)
Variable solver : Mat3 -> Vec3 * Mat3.

(** Modelled from the spec: the degeneracy check behind [UNSTABLE], whose
    criterion and threshold the spec leaves to configuration. *)
Variable degenerate : Mat3 -> bool.

(** Modelled from the spec: [init], declared in the header and defined in
    [curvatureEstimation.hpp].  It resets the accumulators and stores the
    evaluation position. *)
Definition init (W : WFunctor) (evalPos : Vec3) (st : state) : state :=
  mkState (mkFit evalPos 0) (base st) m3_zero v3_zero.

(** Modelled from the spec: [addNeighbor], declared in the header and defined
    in [curvatureEstimation.hpp].  An accepted sample adds its normal to the
    sum of vectors and the outer product of its normal to the sum of outer
    products; the sums are unweighted, [W] is not evaluated. *)
Definition addNeighbor (W : WFunctor) (nei : DataPoint) (st : state)
  : state * bool :=
  if accept (m_evalPos (fit st)) nei then
    (mkState (count_neighbor (fit st)) (base st)
             (m3_add (m_cov st) (outer3 (normal nei) (normal nei)))
             (v3_add (m_cog st) (normal nei)),
     true)
  else (st, false).

(** Modelled from the spec: [finalize], declared in the header and defined in
    [curvatureEstimation.hpp].  Below the minimum of samples the result is
    [UNDEFINED]; otherwise the running sums are turned into the centroid and
    the covariance about it, the covariance is decomposed, the eigenvalue of
    largest magnitude goes to [k1] and one of smallest magnitude to [k2],
    with their eigenvectors; the values are reported whether the status is
    [STABLE] or, when the degeneracy check flags the covariance,
    [UNSTABLE]. *)
Definition finalize (W : WFunctor) (st : state) : state * FIT_RESULT :=
  if (m_nbNeighbors (fit st) <? min_neighbors)%nat then (st, UNDEFINED)
  else
    let n := scalar_of_count (m_nbNeighbors (fit st)) in
    let cog := v3_div (m_cog st) n in
    let cov := m3_sub (m_cov st) (m3_scale n (outer3 cog cog)) in
    let (evals, evecs) := solver cov in
    let i1 := argmax_abs3 evals in
    let i2 := argmin_abs3_except evals i1 in
    (mkState (fit st)
             (Base.mkBase (coeff3 evals i1) (coeff3 evals i2)
                          (col3 evecs i1) (col3 evecs i2))
             cov cog,
     if degenerate cov then UNSTABLE else STABLE).

(** Modelled from the spec: the caller's loop over the neighbor source. *)
Definition addNeighbors (W : WFunctor) (nbrs : list DataPoint) (st : state)
  : state :=
  fold_left (fun s nei => fst (addNeighbor W nei s)) nbrs st.

(** Modelled from the spec: one fit as the caller drives it, [init], the
    loop, [finalize]. *)
Definition run (W : WFunctor) (evalPos : Vec3) (nbrs : list DataPoint)
  (st : state) : state * FIT_RESULT :=
  finalize W (addNeighbors W nbrs (init W evalPos st)).

(** The normals of the samples [addNeighbor] accepts. *)
Definition accepted_normals (evalPos : Vec3) (nbrs : list DataPoint)
  : list Vec3 :=
  map normal (filter (accept evalPos) nbrs).

End Methods.

(** [NormalCovarianceCurvature() : Base() {}]: the base constructor zeroes
    the two curvatures and nothing else is initialised; the values the
    inherited fitting state, the direction vectors and the two members of the
    class start with are arguments. *)
Definition ctor (fit0 : FittingState) (v1 v2 : Vec3) (cov0 : Mat3)
  (cog0 : Vec3) : state :=
  mkState fit0 (Base.ctor v1 v2) cov0 cog0.

(** Instantiation of the class template: the base class carries the
    dimension check. *)
Definition instantiate (Dim : Z) (fit0 : FittingState) (v1 v2 : Vec3)
  (cov0 : Mat3) (cog0 : Vec3) : Template.Instantiation state :=
  Template.derive (fun b => mkState fit0 b cov0 cog0)
                  (Base.instantiate Dim v1 v2).

End NormalCovarianceCurvature.


(* ================================================================== *)
(** * ProjectedNormalCovarianceCurvature (curvatureEstimation.h, lines 161-218) *)

Module ProjectedNormalCovarianceCurvature.
Import Linalg Fitting.
Local Open Scope Q_scope.

(** [enum PASS : int { FIRST_PASS = 0, SECOND_PASS, PASS_COUNT }]. *)
Inductive PASS : Type := FIRST_PASS | SECOND_PASS | PASS_COUNT.

Definition PASS_value (p : PASS) : Z :=
  match p with FIRST_PASS => 0 | SECOND_PASS => 1 | PASS_COUNT => 2 end%Z.

(** The state of an instance: the inherited fitting state and results, and
    the members the class declares ([m_solver] is a parameter below). *)
Record state : Type := mkState {
  fit      : FittingState;
  base     : Results;
  m_cog    : Vec2;     (* gravity center    *)
  m_cov    : Mat22;    (* covariance matrix *)
  m_pass   : PASS;     (* current pass      *)
  m_tframe : Mat32     (* tangent frame     *)
}.

(** Modelled from the spec: the minimum of accepted samples for a 2x2
    covariance. *)
Definition min_neighbors : nat := 2.

(** The class declares no constructor: the implicit one runs the base
    constructor, which zeroes the two curvatures, and initialises none of the
    members of the class, the pass included; the values they start with are
    arguments. *)
Definition ctor (fit0 : FittingState) (v1 v2 : Vec3) (cog0 : Vec2)
  (cov0 : Mat22) (pass0 : PASS) (tframe0 : Mat32) : state :=
  mkState fit0 (Base.ctor v1 v2) cog0 cov0 pass0 tframe0.

Section Methods.

(** Modelled from the spec: the rejection predicate of [addNeighbor]. *)
Variable accept : Vec3 -> DataPoint -> bool.

(** [Eigen::SelfAdjointEigenSolver<Mat22>]. *)
Variable solver : Mat22 -> Vec2 * Mat22.

(** Modelled from the spec: the degeneracy check behind [UNSTABLE]. *)
Variable degenerate : Mat22 -> bool.

(** Modelled from the spec: the construction of two unit vectors orthogonal
    to the fitted normal and to each other. *)
Variable tangent_frame : Vec3 -> Mat32.

(** Modelled from the spec: [init], declared in the header and defined in
    [curvatureEstimation.hpp].  It resets the accumulators and stores the
    evaluation position; the pass and the tangent frame of a completed pass
    are kept. *)
Definition init (W : WFunctor) (evalPos : Vec3) (st : state) : state :=
  mkState (mkFit evalPos 0) (base st) v2_zero m22_zero
          (m_pass st) (m_tframe st).

(** Modelled from the spec: [addNeighbor], declared in the header and defined
    in [curvatureEstimation.hpp].  In the first pass an accepted sample is
    only counted; in the second its normal is projected on the tangent frame
    and the projection enters the two sums, unweighted. *)
Definition addNeighbor (W : WFunctor) (nei : DataPoint) (st : state)
  : state * bool :=
  if accept (m_evalPos (fit st)) nei then
    match m_pass st with
    | SECOND_PASS =>
        let p := m32_tmulv (m_tframe st) (normal nei) in
        (mkState (count_neighbor (fit st)) (base st)
                 (v2_add (m_cog st) p) (m22_add (m_cov st) (outer2 p p))
                 (m_pass st) (m_tframe st),
         true)
    | _ =>
        (mkState (count_neighbor (fit st)) (base st) (m_cog st) (m_cov st)
                 (m_pass st) (m_tframe st),
         true)
    end
  else (st, false).

(** Modelled from the spec: [finalize], declared in the header and defined in
    [curvatureEstimation.hpp].  [fittedNormal] is what the plane-fit
    collaborator exposes: [None] until its own [finalize] has succeeded.  The
    first pass stores the tangent frame and asks for another pass; the second
    applies the minimum-sample rule, centers and decomposes the 2x2
    covariance, maps the eigenvectors back through the frame and reports
    [UNSTABLE] when the degeneracy check flags the covariance, [STABLE]
    otherwise.  [PASS_COUNT] counts the passes and is no pass: nothing is
    computed there. *)
Definition finalize (W : WFunctor) (fittedNormal : option Vec3) (st : state)
  : state * FIT_RESULT :=
  match m_pass st with
  | FIRST_PASS =>
      match fittedNormal with
      | Some n =>
          (mkState (fit st) (base st) (m_cog st) (m_cov st) SECOND_PASS
                   (tangent_frame n),
           NEED_OTHER_PASS)
      | None => (st, UNDEFINED)
      end
  | SECOND_PASS =>
      if (m_nbNeighbors (fit st) <? min_neighbors)%nat then (st, UNDEFINED)
      else
        let n := scalar_of_count (m_nbNeighbors (fit st)) in
        let cog := v2_div (m_cog st) n in
        let cov := m22_sub (m_cov st) (m22_scale n (outer2 cog cog)) in
        let (evals, evecs) := solver cov in
        let i1 := argmax_abs2 evals in
        let i2 := other2 i1 in
        (mkState (fit st)
                 (Base.mkBase (coeff2 evals i1) (coeff2 evals i2)
                              (m32_mulv (m_tframe st) (col2_ evecs i1))
                              (m32_mulv (m_tframe st) (col2_ evecs i2)))
                 cog cov (m_pass st) (m_tframe st),
         if degenerate cov then UNSTABLE else STABLE)
  | PASS_COUNT => (st, UNDEFINED)
  end.

(** Modelled from the spec: the caller's loop over the neighbor source. *)
Definition addNeighbors (W : WFunctor) (nbrs : list DataPoint) (st : state)
  : state :=
  fold_left (fun s nei => fst (addNeighbor W nei s)) nbrs st.

(** Modelled from the spec: one pass as the caller drives it, [init], the
    loop, [finalize]. *)
Definition run_pass (W : WFunctor) (evalPos : Vec3) (nbrs : list DataPoint)
  (fittedNormal : option Vec3) (st : state) : state * FIT_RESULT :=
  finalize W fittedNormal (addNeighbors W nbrs (init W evalPos st)).

(** Modelled from the spec: the whole fit, the pass repeated over the same
    neighbors when [finalize] asks for another one. *)
Definition run (W : WFunctor) (evalPos : Vec3) (nbrs : list DataPoint)
  (fittedNormal : option Vec3) (st : state) : state * FIT_RESULT :=
  let (st1, r1) := run_pass W evalPos nbrs fittedNormal st in
  match r1 with
  | NEED_OTHER_PASS => run_pass W evalPos nbrs fittedNormal st1
  | _ => (st1, r1)
  end.

Definition accepted (evalPos : Vec3) (nbrs : list DataPoint) : list DataPoint :=
  filter (accept evalPos) nbrs.

End Methods.

(** Instantiation of the class template: the base class carries the
    dimension check. *)
Definition instantiate (Dim : Z) (fit0 : FittingState) (v1 v2 : Vec3)
  (cog0 : Vec2) (cov0 : Mat22) (pass0 : PASS) (tframe0 : Mat32)
  : Template.Instantiation state :=
  Template.derive (fun b => mkState fit0 b cog0 cov0 pass0 tframe0)
                  (Base.instantiate Dim v1 v2).

End ProjectedNormalCovarianceCurvature.


Module NCC := NormalCovarianceCurvature.
Module PNCC := ProjectedNormalCovarianceCurvature.

(* ================================================================== *)
(** * Collaborators and neighborhoods to run the estimators on *)

Module Examples.
Import Linalg Fitting.
Local Open Scope Q_scope.

Definition origin : Vec3 := mkVec3 0 0 0.
Definition e1 : Vec3 := mkVec3 1 0 0.
Definition e2 : Vec3 := mkVec3 0 1 0.
Definition e3 : Vec3 := mkVec3 0 0 1.
Definition v3_opp (a : Vec3) : Vec3 := v3_scale (-1) a.

Definition v3_eqb (a b : Vec3) : bool :=
  Qeq_bool (vx a) (vx b) && Qeq_bool (vy a) (vy b) && Qeq_bool (vz a) (vz b).

(** A rejection predicate: zero-distance exclusion. *)
Definition accept_off_center (evalPos : Vec3) (nei : DataPoint) : bool :=
  negb (v3_eqb (pos nei) evalPos).

Definition constant_weight : WFunctor := fun _ _ => 1.



(** An eigensolver for diagonal matrices: the diagonal sorted in ascending
    order, each coefficient with its axis. *)
Definition cswap3 (p q : Q * Vec3) : (Q * Vec3) * (Q * Vec3) :=
  if Qle_bool (fst p) (fst q) then (p, q) else (q, p).

Definition diagonal_solver3 (M : Mat3) : Vec3 * Mat3 :=
  let a := (vx (col0 M), e1) in
  let b := (vy (col1 M), e2) in
  let c := (vz (col2 M), e3) in
  let (a, b) := cswap3 a b in
  let (b, c) := cswap3 b c in
  let (a, b) := cswap3 a b in
  (mkVec3 (fst a) (fst b) (fst c), mkMat3 (snd a) (snd b) (snd c)).

Definition diagonal_solver2 (M : Mat22) : Vec2 * Mat22 :=
  let a := (ux (c0 M), mkVec2 1 0) in
  let b := (uy (c1 M), mkVec2 0 1) in
  if Qle_bool (fst a) (fst b)
  then (mkVec2 (fst a) (fst b), mkMat22 (snd a) (snd b))
  else (mkVec2 (fst b) (fst a), mkMat22 (snd b) (snd a)).


(** A degeneracy check that flags nothing. *)
Definition never_degenerate {M : Type} (_ : M) : bool := false.





(** The tangent frame of a plane of normal [e3]. *)
Definition frame_xy (_ : Vec3) : Mat32 := mkMat32 e1 e2.

(** Samples on the unit circle of the plane [z = 0], normals pointing
    outwards, and one sample at the evaluation position. *)
Definition ring_neighborhood : list DataPoint :=
  [ mkPoint e1 e1; mkPoint (v3_opp e1) (v3_opp e1); mkPoint origin e3;
    mkPoint e2 e2; mkPoint (v3_opp e2) (v3_opp e2) ].



(** Two samples only, one of them at the evaluation position. *)
Definition pair_neighborhood : list DataPoint :=
  [ mkPoint e1 e1; mkPoint origin e3 ].

Definition fresh_single : NCC.state :=
  NCC.mkState (mkFit origin 0) (Base.ctor origin origin) m3_zero v3_zero.

(** An instance of the two-pass estimator in its first pass. *)
Definition fresh_projected : PNCC.state :=
  PNCC.ctor (mkFit origin 0) origin origin v2_zero m22_zero PNCC.FIRST_PASS
            m32_zero.

End Examples.

(* ================================================================== *)
(** * Proof tactics *)

Ltac split_eqs :=
  repeat match goal with
    | H : Linalg.m3_eq _ _ |- _ => destruct H as (? & ? & ?)
    | H : Linalg.v3_eq _ _ |- _ => destruct H as (? & ? & ?)
    end.

Ltac use_eqs :=
  repeat match goal with
    | H : (_ == _)%Q |- _ => try rewrite H; clear H
    end.

(** Reduce an equation between vectors or matrices to its coefficients. *)
Ltac coefficients :=
  unfold Linalg.m3_eq, Linalg.v3_eq;
  cbn [Linalg.vx Linalg.vy Linalg.vz Linalg.col0 Linalg.col1 Linalg.col2
       Linalg.v3_zero Linalg.v3_add Linalg.v3_sub Linalg.v3_scale
       Linalg.v3_div Linalg.cross3 Linalg.outer3 Linalg.m3_zero
       Linalg.m3_add Linalg.m3_sub Linalg.m3_scale Linalg.m3_mulv
       Linalg.coeff3 Linalg.col3];
  repeat split.

Ltac congruence_by_coefficients :=
  repeat intro; split_eqs; coefficients; use_eqs; reflexivity.

(** Compare the magnitudes of the three coefficients of [l]. *)
Ltac by_magnitudes l :=
  generalize (Qabs (Linalg.vx l)) (Qabs (Linalg.vy l)) (Qabs (Linalg.vz l));
  intros; lra.

(* ================================================================== *)
(** * Properties of the accessors, the dimension check and the iterator *)

(** C3: in every state of a curvature estimator, [kMean()] is
    [(k1() + k2()) / 2] and [GaussianCurvature()] is [k1() * k2()]; both are
    computed from the stored [m_k1] and [m_k2] alone, whatever the rest of the
    state, so a state with the same two curvatures has the same mean and
    Gaussian curvature. *)
Theorem kMean_GaussianCurvature_derived :
  forall (Scalar : Type) (ops : ScalarOps Scalar) (VectorType : Type)
         (e : @Base.BaseCurvatureEstimator Scalar VectorType),
    Base.kMean e = sc_div (sc_add (Base.k1 e) (Base.k2 e)) sc_two /\
    Base.GaussianCurvature e = sc_mul (Base.k1 e) (Base.k2 e) /\
    forall v1 v2 : VectorType,
      Base.kMean (Base.mkBase (Base.k1 e) (Base.k2 e) v1 v2) = Base.kMean e /\
      Base.GaussianCurvature (Base.mkBase (Base.k1 e) (Base.k2 e) v1 v2)
      = Base.GaussianCurvature e.
Proof.
  intros Scalar ops VectorType [a b u v]; cbn.
  repeat split.
Qed.

(** On rational scalars the two accessors read as the usual formulas. *)
Lemma kMean_rational :
  forall e : Fitting.Results,
    Base.kMean e = ((Base.k1 e + Base.k2 e) / 2)%Q /\
    Base.GaussianCurvature e = (Base.k1 e * Base.k2 e)%Q.
Proof. intros e; split; reflexivity. Qed.

(** C7: a curvature estimator is instantiated exactly for 3D point data.
    For every value of [DataPoint::Dim], instantiating
    [BaseCurvatureEstimator], [NormalCovarianceCurvature] or
    [ProjectedNormalCovarianceCurvature] yields the class when [Dim] is 3
    and otherwise fails the [static_assert] with its message: the rejection
    happens at instantiation, before any object exists on which [finalize]
    could report a status. *)
Theorem dimension_checked_at_instantiation :
  forall (Dim : Z) (v1 v2 : Linalg.Vec3) (fit0 : Fitting.FittingState)
         (cov3 : Linalg.Mat3) (cog3 : Linalg.Vec3)
         (cog2 : Linalg.Vec2) (cov2 : Linalg.Mat22) (pass0 : PNCC.PASS)
         (tframe0 : Linalg.Mat32),
    (match @Base.instantiate Q _ Linalg.Vec3 Dim v1 v2 with
     | Template.Instantiated e => Dim = 3 /\ e = Base.ctor v1 v2
     | Template.StaticAssertFailed msg =>
         Dim <> 3 /\ msg = Base.static_assert_msg
     end) /\
    (match NCC.instantiate Dim fit0 v1 v2 cov3 cog3 with
     | Template.Instantiated e =>
         Dim = 3 /\ e = NCC.ctor fit0 v1 v2 cov3 cog3
     | Template.StaticAssertFailed msg =>
         Dim <> 3 /\ msg = Base.static_assert_msg
     end) /\
    (match PNCC.instantiate Dim fit0 v1 v2 cog2 cov2 pass0 tframe0 with
     | Template.Instantiated e =>
         Dim = 3 /\ e = PNCC.ctor fit0 v1 v2 cog2 cov2 pass0 tframe0
     | Template.StaticAssertFailed msg =>
         Dim <> 3 /\ msg = Base.static_assert_msg
     end).
Proof.
  intros Dim v1 v2 fit0 cov3 cog3 cog2 cov2 pass0 tframe0.
  unfold NCC.instantiate, PNCC.instantiate, Base.instantiate,
    Template.derive, Template.static_assert.
  destruct (Z.eqb_spec Dim 3) as [E | E]; repeat split; assumption.
Qed.

(** C10: two iterators differ, for [operator!=], exactly when their stored
    indices differ, whatever query each belongs to; and [operator*] returns
    the stored index. *)
Theorem iterator_neq_deref :
  forall (QueryRef : Type) (q1 q2 : QueryRef) (i j : Z),
    (KdTreeIterator.operator_neq (KdTreeIterator.mkIterator q1 i)
                                 (KdTreeIterator.mkIterator q2 j) = true
     <-> i <> j) /\
    KdTreeIterator.operator_deref (KdTreeIterator.mkIterator q1 i) = i.
Proof.
  intros QueryRef q1 q2 i j.
  unfold KdTreeIterator.operator_neq, KdTreeIterator.operator_deref; cbn.
  split; [ | reflexivity ].
  rewrite negb_true_iff. apply Z.eqb_neq.
Qed.


(* ================================================================== *)
(** * Coefficientwise equality is a congruence *)

Import Linalg Fitting Covariance.
Local Open Scope Q_scope.

#[global] Instance v3_eq_Equivalence : Equivalence v3_eq.
Proof.
  split.
  - intros a; coefficients; reflexivity.
  - intros a b H; split_eqs; coefficients; symmetry; assumption.
  - intros a b c H1 H2; split_eqs; coefficients; etransitivity; eassumption.
Qed.

#[global] Instance m3_eq_Equivalence : Equivalence m3_eq.
Proof.
  split.
  - intros A; split; [ | split ]; reflexivity.
  - intros A B (H0 & H1 & H2); split; [ | split ]; symmetry; assumption.
  - intros A B C (H0 & H1 & H2) (K0 & K1 & K2);
      split; [ | split ]; etransitivity; eassumption.
Qed.

#[global] Instance v3_add_Proper : Proper (v3_eq ==> v3_eq ==> v3_eq) v3_add.
Proof. congruence_by_coefficients. Qed.

#[global] Instance v3_sub_Proper : Proper (v3_eq ==> v3_eq ==> v3_eq) v3_sub.
Proof. congruence_by_coefficients. Qed.

#[global] Instance v3_scale_Proper : Proper (Qeq ==> v3_eq ==> v3_eq) v3_scale.
Proof. congruence_by_coefficients. Qed.

#[global] Instance v3_div_Proper : Proper (v3_eq ==> Qeq ==> v3_eq) v3_div.
Proof. congruence_by_coefficients. Qed.

#[global] Instance dot3_Proper : Proper (v3_eq ==> v3_eq ==> Qeq) dot3.
Proof. repeat intro; split_eqs; unfold dot3; use_eqs; reflexivity. Qed.

#[global] Instance outer3_Proper : Proper (v3_eq ==> v3_eq ==> m3_eq) outer3.
Proof. congruence_by_coefficients. Qed.

#[global] Instance m3_add_Proper : Proper (m3_eq ==> m3_eq ==> m3_eq) m3_add.
Proof. congruence_by_coefficients. Qed.

#[global] Instance m3_sub_Proper : Proper (m3_eq ==> m3_eq ==> m3_eq) m3_sub.
Proof. congruence_by_coefficients. Qed.

#[global] Instance m3_scale_Proper : Proper (Qeq ==> m3_eq ==> m3_eq) m3_scale.
Proof. congruence_by_coefficients. Qed.

#[global] Instance m3_mulv_Proper : Proper (m3_eq ==> v3_eq ==> v3_eq) m3_mulv.
Proof. congruence_by_coefficients. Qed.


(* ================================================================== *)
(** * From running sums to the covariance about the centroid *)

Lemma scalar_of_count_S :
  forall n : nat, scalar_of_count (S n) == scalar_of_count n + 1.
Proof.
  intros n. unfold scalar_of_count.
  rewrite Nat2Z.inj_succ, <- Z.add_1_r, inject_Z_plus. reflexivity.
Qed.

Lemma scalar_of_count_pos :
  forall n : nat, (0 < n)%nat -> 0 < scalar_of_count n.
Proof.
  intros n Hn. unfold scalar_of_count.
  change 0 with (inject_Z 0). rewrite <- Zlt_Qlt. lia.
Qed.

(** The sum of centered outer products, expanded around any [c]. *)
Lemma covariance_about_expand :
  forall (c : Vec3) (ns : list Vec3),
    m3_eq (covariance_about c ns)
          (m3_add (m3_sub (m3_sub (outer_sum ns) (outer3 (normals_sum ns) c))
                          (outer3 c (normals_sum ns)))
                  (m3_scale (scalar_of_count (length ns)) (outer3 c c))).
Proof.
  intros c ns. induction ns as [ | n ns IH ].
  - cbn [covariance_about outer_sum normals_sum fold_right length].
    change (scalar_of_count 0) with 0.
    coefficients; ring.
  - cbn [covariance_about outer_sum normals_sum fold_right length].
    fold (covariance_about c ns) (outer_sum ns) (normals_sum ns).
    rewrite IH. pose proof (scalar_of_count_S (length ns)) as HS.
    coefficients; rewrite HS; ring.
Qed.

(** What [finalize] computes from the running sums is the covariance about
    the mean. *)
Lemma centered_from_sums :
  forall ns : list Vec3,
    (0 < length ns)%nat ->
    m3_eq (m3_sub (outer_sum ns)
                  (m3_scale (scalar_of_count (length ns))
                            (outer3 (mean_normal ns) (mean_normal ns))))
          (centered_covariance ns).
Proof.
  intros ns Hlen. unfold centered_covariance.
  rewrite covariance_about_expand.
  pose proof (scalar_of_count_pos _ Hlen) as Hpos.
  unfold mean_normal.
  coefficients; field; intros E; rewrite E in Hpos; discriminate Hpos.
Qed.

(** ** Choosing by magnitude *)

Lemma abs_lt_spec :
  forall a b : Q, if abs_lt a b then Qabs a < Qabs b else Qabs b <= Qabs a.
Proof.
  intros a b. unfold abs_lt.
  destruct (Qle_bool (Qabs b) (Qabs a)) eqn:E; cbn.
  - apply Qle_bool_iff; exact E.
  - apply Qnot_le_lt. intros H. apply Qle_bool_iff in H. congruence.
Qed.

Lemma argmax_abs3_spec :
  forall (l : Vec3) (j : Idx3),
    Qabs (coeff3 l j) <= Qabs (coeff3 l (argmax_abs3 l)).
Proof.
  intros l j. unfold argmax_abs3.
  pose proof (abs_lt_spec (vx l) (vy l)) as H1.
  destruct (abs_lt (vx l) (vy l)); cbn [coeff3].
  - pose proof (abs_lt_spec (vy l) (vz l)) as H2.
    destruct (abs_lt (vy l) (vz l)); destruct j; cbn [coeff3];
      revert H1 H2; by_magnitudes l.
  - pose proof (abs_lt_spec (vx l) (vz l)) as H2.
    destruct (abs_lt (vx l) (vz l)); destruct j; cbn [coeff3];
      revert H1 H2; by_magnitudes l.
Qed.

Lemma argmin_abs3_except_distinct :
  forall (l : Vec3) (i : Idx3), argmin_abs3_except l i <> i.
Proof.
  intros l i. unfold argmin_abs3_except.
  destruct i; cbn [others3];
    match goal with |- context [abs_lt ?a ?b] => destruct (abs_lt a b) end;
    discriminate.
Qed.

Lemma argmin_abs3_except_spec :
  forall (l : Vec3) (j : Idx3),
    Qabs (coeff3 l (argmin_abs3_except l (argmax_abs3 l))) <= Qabs (coeff3 l j).
Proof.
  intros l j.
  pose proof (argmax_abs3_spec l I0) as M0.
  pose proof (argmax_abs3_spec l I1) as M1.
  pose proof (argmax_abs3_spec l I2) as M2.
  unfold argmin_abs3_except.
  destruct (argmax_abs3 l); cbn [others3 coeff3] in *;
    match goal with
    | |- context [abs_lt ?a ?b] =>
        pose proof (abs_lt_spec a b) as H; destruct (abs_lt a b)
    end;
    destruct j; cbn [coeff3]; revert M0 M1 M2 H; by_magnitudes l.
Qed.

Lemma argmax_abs2_spec :
  forall (l : Vec2) (j : Idx2),
    Qabs (coeff2 l j) <= Qabs (coeff2 l (argmax_abs2 l)).
Proof.
  intros l j. unfold argmax_abs2.
  pose proof (abs_lt_spec (ux l) (uy l)) as H.
  destruct (abs_lt (ux l) (uy l)); destruct j; cbn [coeff2];
    revert H; generalize (Qabs (ux l)) (Qabs (uy l)); intros; lra.
Qed.


(* ================================================================== *)
(** * The single-pass estimator *)

Section SinglePass.

Variable accept : Vec3 -> DataPoint -> bool.
Variable solver : Mat3 -> Vec3 * Mat3.
Variable degenerate : Mat3 -> bool.


(** The loop leaves the evaluation position and the results alone, counts
    the accepted samples and adds their normals to the two sums. *)
Lemma addNeighbors_sums :
  forall (W : WFunctor) (nbrs : list DataPoint) (st : NCC.state),
    let ns := NCC.accepted_normals accept (m_evalPos (NCC.fit st)) nbrs in
    let st' := NCC.addNeighbors accept W nbrs st in
    NCC.fit st' = mkFit (m_evalPos (NCC.fit st))
                        (m_nbNeighbors (NCC.fit st) + length ns) /\
    NCC.base st' = NCC.base st /\
    m3_eq (NCC.m_cov st') (m3_add (NCC.m_cov st) (outer_sum ns)) /\
    v3_eq (NCC.m_cog st') (v3_add (NCC.m_cog st) (normals_sum ns)).
Proof.
  intros W nbrs. unfold NCC.accepted_normals.
  induction nbrs as [ | nei nbrs IH ]; intros st; cbn zeta.
  - cbn [NCC.addNeighbors fold_left filter map length outer_sum normals_sum
         fold_right].
    rewrite Nat.add_0_r. destruct st as [[p k] b C g].
    cbn [NCC.fit NCC.base NCC.m_cov NCC.m_cog m_evalPos m_nbNeighbors].
    split; [ reflexivity | ]. split; [ reflexivity | ].
    split; coefficients; ring.
  - cbn [NCC.addNeighbors fold_left filter].
    fold (NCC.addNeighbors accept W nbrs (fst (NCC.addNeighbor accept W nei st))).
    unfold NCC.addNeighbor.
    destruct (accept (m_evalPos (NCC.fit st)) nei) eqn:Acc; cbn [fst].
    + specialize (IH (NCC.mkState (count_neighbor (NCC.fit st)) (NCC.base st)
                        (m3_add (NCC.m_cov st)
                                (outer3 (normal nei) (normal nei)))
                        (v3_add (NCC.m_cog st) (normal nei)))).
      cbn zeta in IH. cbn [NCC.fit NCC.base NCC.m_cov NCC.m_cog
                           count_neighbor m_evalPos m_nbNeighbors] in IH.
      destruct IH as (Hfit & Hbase & Hcov & Hcog).
      cbn [map length outer_sum normals_sum fold_right].
      fold (outer_sum (map normal (filter (accept (m_evalPos (NCC.fit st))) nbrs))).
      fold (normals_sum (map normal (filter (accept (m_evalPos (NCC.fit st))) nbrs))).
      split; [ rewrite Hfit; f_equal; lia | ].
      split; [ exact Hbase | ].
      split.
      * rewrite Hcov. coefficients; ring.
      * rewrite Hcog. coefficients; ring.
    + apply IH.
Qed.

(** With enough samples [finalize] centers, decomposes and selects. *)
Lemma finalize_enough :
  forall (W : WFunctor) (st : NCC.state),
    (NCC.min_neighbors <= m_nbNeighbors (NCC.fit st))%nat ->
    let n := scalar_of_count (m_nbNeighbors (NCC.fit st)) in
    let cog := v3_div (NCC.m_cog st) n in
    let cov := m3_sub (NCC.m_cov st) (m3_scale n (outer3 cog cog)) in
    let evals := fst (solver cov) in
    let evecs := snd (solver cov) in
    let i1 := argmax_abs3 evals in
    let i2 := argmin_abs3_except evals i1 in
    NCC.finalize solver degenerate W st =
      (NCC.mkState (NCC.fit st)
                   (Base.mkBase (coeff3 evals i1) (coeff3 evals i2)
                                (col3 evecs i1) (col3 evecs i2))
                   cov cog,
       if degenerate cov then UNSTABLE else STABLE).
Proof.
  intros W st Hn. cbn zeta. unfold NCC.finalize.
  apply Nat.ltb_ge in Hn. rewrite Hn.
  destruct (solver _) as [evals evecs]. reflexivity.
Qed.

Lemma finalize_few :
  forall (W : WFunctor) (st : NCC.state),
    (m_nbNeighbors (NCC.fit st) < NCC.min_neighbors)%nat ->
    NCC.finalize solver degenerate W st = (st, UNDEFINED).
Proof.
  intros W st Hn. unfold NCC.finalize.
  apply Nat.ltb_lt in Hn. rewrite Hn. reflexivity.
Qed.

(** The state the loop hands to [finalize] in a run. *)
Lemma run_sums :
  forall (W : WFunctor) (evalPos : Vec3) (nbrs : list DataPoint)
         (st : NCC.state),
    let ns := NCC.accepted_normals accept evalPos nbrs in
    let st1 := NCC.addNeighbors accept W nbrs (NCC.init W evalPos st) in
    NCC.fit st1 = mkFit evalPos (length ns) /\
    NCC.base st1 = NCC.base st /\
    m3_eq (NCC.m_cov st1) (outer_sum ns) /\
    v3_eq (NCC.m_cog st1) (normals_sum ns).
Proof.
  intros W evalPos nbrs st.
  destruct (addNeighbors_sums W nbrs (NCC.init W evalPos st))
    as (Hfit & Hbase & Hcov & Hcog).
  cbn [NCC.init NCC.fit NCC.base NCC.m_cov NCC.m_cog m_evalPos
       m_nbNeighbors Nat.add] in *.
  cbn zeta. split; [ exact Hfit | ]. split; [ exact Hbase | ]. split.
  - rewrite Hcov. coefficients; ring.
  - rewrite Hcog. coefficients; ring.
Qed.

(** The covariance a run stores is the spec's covariance about the mean. *)
Lemma run_covariance :
  forall (W : WFunctor) (evalPos : Vec3) (nbrs : list DataPoint)
         (st : NCC.state),
    let ns := NCC.accepted_normals accept evalPos nbrs in
    let st' := fst (NCC.run accept solver degenerate W evalPos nbrs st) in
    (NCC.min_neighbors <= length ns)%nat ->
    m3_eq (NCC.m_cov st') (centered_covariance ns) /\
    v3_eq (NCC.m_cog st') (mean_normal ns).
Proof.
  intros W evalPos nbrs st ns st' Hlen. subst st'. unfold NCC.run.
  destruct (run_sums W evalPos nbrs st) as (Hfit & _ & Hcov & Hcog).
  fold ns in Hfit, Hcov, Hcog.
  rewrite finalize_enough by (rewrite Hfit; exact Hlen).
  cbn [fst NCC.m_cov NCC.m_cog]. rewrite Hfit. cbn [m_nbNeighbors].
  assert (Hmean : v3_eq (v3_div (NCC.m_cog
                    (NCC.addNeighbors accept W nbrs (NCC.init W evalPos st)))
                    (scalar_of_count (length ns))) (mean_normal ns)).
  { unfold mean_normal. rewrite Hcog. reflexivity. }
  split; [ | exact Hmean ].
  rewrite Hmean, Hcov. apply centered_from_sums.
  unfold NCC.min_neighbors in Hlen. lia.
Qed.

(** The results and the status of a run with enough accepted samples, in
    terms of the decomposition of the covariance it stores. *)
Lemma run_selection :
  forall (W : WFunctor) (evalPos : Vec3) (nbrs : list DataPoint)
         (st : NCC.state),
    let ns := NCC.accepted_normals accept evalPos nbrs in
    let res := NCC.run accept solver degenerate W evalPos nbrs st in
    (NCC.min_neighbors <= length ns)%nat ->
    let evals := fst (solver (NCC.m_cov (fst res))) in
    let evecs := snd (solver (NCC.m_cov (fst res))) in
    let i1 := argmax_abs3 evals in
    let i2 := argmin_abs3_except evals i1 in
    NCC.base (fst res) = Base.mkBase (coeff3 evals i1) (coeff3 evals i2)
                                     (col3 evecs i1) (col3 evecs i2) /\
    snd res = if degenerate (NCC.m_cov (fst res)) then UNSTABLE else STABLE.
Proof.
  intros W evalPos nbrs st ns res Hlen. subst res. unfold NCC.run.
  destruct (run_sums W evalPos nbrs st) as (Hfit & _).
  fold ns in Hfit.
  rewrite finalize_enough by (rewrite Hfit; exact Hlen).
  cbn [fst snd NCC.m_cov NCC.base]. split; reflexivity.
Qed.

(** A run below the minimum returns [UNDEFINED], and its [finalize] leaves
    the state as the loop handed it over. *)
Lemma run_few :
  forall (W : WFunctor) (evalPos : Vec3) (nbrs : list DataPoint)
         (st : NCC.state),
    (length (NCC.accepted_normals accept evalPos nbrs) < NCC.min_neighbors)%nat ->
    snd (NCC.run accept solver degenerate W evalPos nbrs st) = UNDEFINED /\
    fst (NCC.run accept solver degenerate W evalPos nbrs st)
    = NCC.addNeighbors accept W nbrs (NCC.init W evalPos st).
Proof.
  intros W evalPos nbrs st Hlen. unfold NCC.run.
  destruct (run_sums W evalPos nbrs st) as (Hfit & _).
  rewrite finalize_few by (rewrite Hfit; exact Hlen).
  cbn [fst snd]. split; reflexivity.
Qed.

(** A run that does not return [UNDEFINED] had enough accepted samples. *)
Lemma run_defined_enough :
  forall (W : WFunctor) (evalPos : Vec3) (nbrs : list DataPoint)
         (st : NCC.state),
    snd (NCC.run accept solver degenerate W evalPos nbrs st) <> UNDEFINED ->
    (NCC.min_neighbors <= length (NCC.accepted_normals accept evalPos nbrs))%nat.
Proof.
  intros W evalPos nbrs st Hdef.
  destruct (Nat.le_gt_cases NCC.min_neighbors
              (length (NCC.accepted_normals accept evalPos nbrs)))
    as [H | H]; [ exact H | ].
  exfalso. apply Hdef. apply run_few. exact H.
Qed.

End SinglePass.


(** ** Neighborhoods whose normals are all the same *)





Lemma eigenpair3_matrix_eq :
  forall (M N : Mat3) (l : Q) (v : Vec3),
    m3_eq M N -> eigenpair3 M l v -> eigenpair3 N l v.
Proof.
  intros M N l v HMN [Hev Hunit]. split; [ | exact Hunit ].
  rewrite <- HMN. exact Hev.
Qed.

(* ================================================================== *)
(** * The single-pass estimator: covariance, selection, status *)

(** C1 (finalize is modelled from the spec): when the single-pass estimator
    accepts a neighbor set, that is when the run does not end [UNDEFINED],
    the covariance it stores is [sum of (n_i - c)(n_i - c)^T] over the accepted
    normals, with [c] their mean, which it stores as center of gravity; [k1]
    and [k2] are two different eigenvalues returned by the solver for that
    covariance, the first of largest and the second of smallest magnitude
    among the three, and the two directions are the solver's eigenvectors of
    the same indices; where the solver keeps its contract on that matrix,
    they are unit eigenvectors of the covariance for [k1] and [k2]. *)
Theorem finalize_covariance_and_directions :
  forall (accept : Vec3 -> DataPoint -> bool) (solver : Mat3 -> Vec3 * Mat3)
         (degenerate : Mat3 -> bool) (W : WFunctor) (evalPos : Vec3)
         (nbrs : list DataPoint) (st : NCC.state),
    let ns := NCC.accepted_normals accept evalPos nbrs in
    let res := NCC.run accept solver degenerate W evalPos nbrs st in
    let e := NCC.base (fst res) in
    let dec := solver (NCC.m_cov (fst res)) in
    snd res <> UNDEFINED ->
    m3_eq (NCC.m_cov (fst res)) (centered_covariance ns) /\
    v3_eq (NCC.m_cog (fst res)) (mean_normal ns) /\
    (exists i1 i2 : Idx3,
        i1 <> i2 /\
        Base.k1 e = coeff3 (fst dec) i1 /\
        Base.k1Direction e = col3 (snd dec) i1 /\
        Base.k2 e = coeff3 (fst dec) i2 /\
        Base.k2Direction e = col3 (snd dec) i2) /\
    (forall j, Qabs (coeff3 (fst dec) j) <= Qabs (Base.k1 e)) /\
    (forall j, Qabs (Base.k2 e) <= Qabs (coeff3 (fst dec) j)) /\
    (eigen_contract3 (NCC.m_cov (fst res)) dec ->
     eigenpair3 (centered_covariance ns) (Base.k1 e) (Base.k1Direction e) /\
     eigenpair3 (centered_covariance ns) (Base.k2 e) (Base.k2Direction e)).
Proof.
  intros accept solver degenerate W evalPos nbrs st ns res e dec Hdef.
  pose proof (run_defined_enough _ _ _ _ _ _ _ Hdef) as Hlen.
  destruct (run_covariance accept solver degenerate W evalPos nbrs st Hlen)
    as [Hcov Hcog].
  destruct (run_selection accept solver degenerate W evalPos nbrs st Hlen)
    as [Hbase _].
  fold res in Hcov, Hcog, Hbase. fold dec in Hbase.
  subst e. rewrite Hbase. cbn [Base.k1 Base.k2 Base.k1Direction
                                Base.k2Direction Base.m_k1 Base.m_k2
                                Base.m_v1 Base.m_v2].
  split; [ exact Hcov | ]. split; [ exact Hcog | ].
  split.
  { exists (argmax_abs3 (fst dec)),
           (argmin_abs3_except (fst dec) (argmax_abs3 (fst dec))).
    split; [ | repeat split ].
    intros E. symmetry in E. revert E. apply argmin_abs3_except_distinct. }
  split; [ apply argmax_abs3_spec | ].
  split; [ apply argmin_abs3_except_spec | ].
  intros [_ Hpairs].
  split; apply (eigenpair3_matrix_eq _ _ _ _ Hcov); apply Hpairs.
Qed.




(* ================================================================== *)
(** * The two-pass estimator *)

Section TwoPass.

Variable accept : Vec3 -> DataPoint -> bool.
Variable solver : Mat22 -> Vec2 * Mat22.
Variable degenerate : Mat22 -> bool.
Variable tangent_frame : Vec3 -> Mat32.

(** [init] touches neither the pass nor the tangent frame nor the results,
    and clears the rest. *)
Lemma init_frame :
  forall (W : WFunctor) (evalPos : Vec3) (st : PNCC.state),
    PNCC.m_tframe (PNCC.init W evalPos st) = PNCC.m_tframe st /\
    PNCC.m_pass (PNCC.init W evalPos st) = PNCC.m_pass st /\
    PNCC.base (PNCC.init W evalPos st) = PNCC.base st /\
    PNCC.m_cog (PNCC.init W evalPos st) = v2_zero /\
    PNCC.m_cov (PNCC.init W evalPos st) = m22_zero /\
    PNCC.fit (PNCC.init W evalPos st) = mkFit evalPos 0.
Proof. intros W evalPos st. repeat split. Qed.

(** The loop keeps the pass, the frame and the results, and counts the
    accepted samples. *)
Lemma addNeighbors_frame :
  forall (W : WFunctor) (nbrs : list DataPoint) (st : PNCC.state),
    let st' := PNCC.addNeighbors accept W nbrs st in
    PNCC.m_pass st' = PNCC.m_pass st /\
    PNCC.m_tframe st' = PNCC.m_tframe st /\
    PNCC.base st' = PNCC.base st /\
    PNCC.fit st' =
      mkFit (m_evalPos (PNCC.fit st))
            (m_nbNeighbors (PNCC.fit st)
             + length (PNCC.accepted accept (m_evalPos (PNCC.fit st)) nbrs)).
Proof.
  intros W nbrs. unfold PNCC.accepted.
  induction nbrs as [ | nei nbrs IH ]; intros st; cbn zeta.
  - cbn [PNCC.addNeighbors fold_left filter length].
    rewrite Nat.add_0_r. destruct st as [[p k] b g C ps F]. repeat split.
  - cbn [PNCC.addNeighbors fold_left filter].
    fold (PNCC.addNeighbors accept W nbrs
            (fst (PNCC.addNeighbor accept W nei st))).
    unfold PNCC.addNeighbor.
    destruct (accept (m_evalPos (PNCC.fit st)) nei) eqn:Acc.
    + destruct (PNCC.m_pass st) eqn:P; cbn [fst];
        match goal with
        | |- context [PNCC.addNeighbors accept W nbrs ?s] =>
            specialize (IH s)
        end;
        cbn zeta in IH;
        cbn [PNCC.fit PNCC.base PNCC.m_pass PNCC.m_tframe count_neighbor
             m_evalPos m_nbNeighbors] in IH;
        destruct IH as (Hp & Hf & Hb & Hfit);
        (split; [ exact Hp | ]);
        (split; [ exact Hf | ]); (split; [ exact Hb | ]);
        rewrite Hfit; cbn [length]; f_equal; lia.
    + cbn [fst]. apply IH.
Qed.

(** The first pass, with a fitted normal at hand, stores the frame built
    from it, moves to the second pass and asks for it. *)
Lemma first_pass :
  forall (W : WFunctor) (evalPos : Vec3) (nbrs : list DataPoint)
         (n : Vec3) (st : PNCC.state),
    PNCC.m_pass st = PNCC.FIRST_PASS ->
    let res :=
      PNCC.run_pass accept solver degenerate tangent_frame W evalPos nbrs
                    (Some n) st in
    snd res = NEED_OTHER_PASS /\
    PNCC.m_pass (fst res) = PNCC.SECOND_PASS /\
    PNCC.m_tframe (fst res) = tangent_frame n /\
    PNCC.base (fst res) = PNCC.base st.
Proof.
  intros W evalPos nbrs n st Hpass res. subst res. unfold PNCC.run_pass.
  destruct (addNeighbors_frame W nbrs (PNCC.init W evalPos st))
    as (Hp & _ & Hb & _).
  cbn [PNCC.init PNCC.m_pass PNCC.base] in Hp, Hb.
  unfold PNCC.finalize. rewrite Hp, Hpass. cbn [fst snd PNCC.m_pass
    PNCC.m_tframe PNCC.base].
  repeat split. exact Hb.
Qed.

(** The second pass applies the minimum-sample rule and the degeneracy
    check, and keeps the frame. *)
Lemma second_pass :
  forall (W : WFunctor) (evalPos : Vec3) (nbrs : list DataPoint)
         (fittedNormal : option Vec3) (st : PNCC.state),
    PNCC.m_pass st = PNCC.SECOND_PASS ->
    let res :=
      PNCC.run_pass accept solver degenerate tangent_frame W evalPos nbrs
                    fittedNormal st in
    PNCC.m_tframe (fst res) = PNCC.m_tframe st /\
    snd res =
      (if (length (PNCC.accepted accept evalPos nbrs) <? PNCC.min_neighbors)%nat
       then UNDEFINED
       else if degenerate (PNCC.m_cov (fst res)) then UNSTABLE else STABLE) /\
    ((length (PNCC.accepted accept evalPos nbrs) <? PNCC.min_neighbors)%nat
     = true ->
     fst res = PNCC.addNeighbors accept W nbrs (PNCC.init W evalPos st)).
Proof.
  intros W evalPos nbrs fittedNormal st Hpass res. subst res.
  unfold PNCC.run_pass.
  destruct (addNeighbors_frame W nbrs (PNCC.init W evalPos st))
    as (Hp & Hf & Hb & Hfit).
  cbn [PNCC.init PNCC.m_pass PNCC.m_tframe PNCC.fit PNCC.base m_evalPos
       m_nbNeighbors Nat.add] in Hp, Hf, Hb, Hfit.
  unfold PNCC.finalize. rewrite Hp, Hpass, Hfit. cbn [m_nbNeighbors].
  destruct (length (PNCC.accepted accept evalPos nbrs) <? PNCC.min_neighbors)%nat.
  - cbn [fst snd]. split; [ exact Hf | ]. split; reflexivity.
  - destruct (solver _) as [evals evecs].
    cbn [fst snd PNCC.m_tframe PNCC.m_cov]. split; [ exact Hf | ].
    split; [ reflexivity | ]. intros E; discriminate E.
Qed.

End TwoPass.


(* ================================================================== *)
(** * Passes, minimum of samples, weighting *)


(** C5 (finalize is modelled from the spec): a neighbor set with fewer
    accepted samples than the minimum of the current pass, 3 for the
    single-pass estimator (so 0, 1 or 2 samples) and 2 for the second pass of
    the two-pass one, makes [finalize] return [UNDEFINED]; no result is
    computed: [finalize] leaves the state, results included, as the loop
    over the neighbors handed it over. *)
Theorem undefined_below_minimum :
  forall (accept : Vec3 -> DataPoint -> bool) (W : WFunctor) (evalPos : Vec3)
         (nbrs : list DataPoint),
    NCC.min_neighbors = 3%nat /\
    (forall (solver : Mat3 -> Vec3 * Mat3) (degenerate : Mat3 -> bool)
            (st : NCC.state),
        (length (NCC.accepted_normals accept evalPos nbrs)
         < NCC.min_neighbors)%nat ->
        snd (NCC.run accept solver degenerate W evalPos nbrs st) = UNDEFINED /\
        fst (NCC.run accept solver degenerate W evalPos nbrs st)
        = NCC.addNeighbors accept W nbrs (NCC.init W evalPos st)) /\
    (forall (solver : Mat22 -> Vec2 * Mat22) (degenerate : Mat22 -> bool)
            (tangent_frame : Vec3 -> Mat32) (fittedNormal : option Vec3)
            (st : PNCC.state),
        PNCC.m_pass st = PNCC.SECOND_PASS ->
        (length (PNCC.accepted accept evalPos nbrs)
         < PNCC.min_neighbors)%nat ->
        snd (PNCC.run_pass accept solver degenerate tangent_frame W evalPos
                           nbrs fittedNormal st) = UNDEFINED /\
        fst (PNCC.run_pass accept solver degenerate tangent_frame W evalPos
                           nbrs fittedNormal st)
        = PNCC.addNeighbors accept W nbrs (PNCC.init W evalPos st)).
Proof.
  intros accept W evalPos nbrs. split; [ reflexivity | ]. split.
  - intros solver degenerate st Hlen. apply run_few. exact Hlen.
  - intros solver degenerate tangent_frame fittedNormal st Hpass Hlen.
    destruct (second_pass accept solver degenerate tangent_frame
                W evalPos nbrs fittedNormal st Hpass) as (_ & Hs & Hb).
    apply Nat.ltb_lt in Hlen. rewrite Hlen in Hs, Hb.
    split; [ exact Hs | apply Hb; reflexivity ].
Qed.

(** C6 (init is modelled from the spec): once the first pass of the two-pass
    estimator is completed, the tangent frame is the one built from the
    fitted normal, and the [init] that starts the second pass zeroes the
    accumulators and the count and stores the evaluation position it is
    given, but leaves the tangent frame and the pass as the first pass left
    them; the frame is still the same at the end of the second pass. *)
Theorem init_keeps_tangent_frame :
  forall (accept : Vec3 -> DataPoint -> bool) (solver : Mat22 -> Vec2 * Mat22)
         (degenerate : Mat22 -> bool) (tangent_frame : Vec3 -> Mat32)
         (W : WFunctor) (evalPos evalPos2 : Vec3) (nbrs nbrs2 : list DataPoint)
         (n : Vec3) (fittedNormal2 : option Vec3) (st : PNCC.state),
    let st1 :=
      fst (PNCC.run_pass accept solver degenerate tangent_frame W evalPos
                         nbrs (Some n) st) in
    let st2 := PNCC.init W evalPos2 st1 in
    PNCC.m_pass st = PNCC.FIRST_PASS ->
    PNCC.m_tframe st1 = tangent_frame n /\
    PNCC.m_tframe st2 = PNCC.m_tframe st1 /\
    PNCC.m_pass st2 = PNCC.SECOND_PASS /\
    PNCC.m_cog st2 = v2_zero /\
    PNCC.m_cov st2 = m22_zero /\
    PNCC.fit st2 = mkFit evalPos2 0 /\
    PNCC.m_tframe
      (fst (PNCC.run_pass accept solver degenerate tangent_frame W evalPos2
                          nbrs2 fittedNormal2 st1)) = tangent_frame n.
Proof.
  intros accept solver degenerate tangent_frame W evalPos evalPos2 nbrs nbrs2
         n fittedNormal2 st st1 st2 Hpass.
  destruct (first_pass accept solver degenerate tangent_frame
              W evalPos nbrs n st Hpass) as (_ & Hp & Hf & _).
  fold st1 in Hp, Hf.
  destruct (init_frame W evalPos2 st1) as (If & Ip & Ib & Ig & Ic & Ifit).
  fold st2 in If, Ip, Ib, Ig, Ic, Ifit.
  repeat (split; [ first [ assumption | congruence ] | ]).
  destruct (second_pass accept solver degenerate tangent_frame
              W evalPos2 nbrs2 fittedNormal2 st1 Hp) as (Hf2 & _).
  rewrite Hf2. exact Hf.
Qed.






(* ================================================================== *)
(** * Runs on concrete neighborhoods *)

Import Examples.

(** The diagonal solver keeps the eigensolver contract on the covariance of
    the ring neighborhood. *)
Lemma ring_contract :
  let res := NCC.run accept_off_center diagonal_solver3 never_degenerate
                     constant_weight origin ring_neighborhood fresh_single in
  eigen_contract3 (NCC.m_cov (fst res)) (diagonal_solver3 (NCC.m_cov (fst res))).
Proof.
  intros res. split.
  - vm_compute. split; discriminate.
  - intros i; destruct i; vm_compute; repeat split.
Defined.


Lemma finalize_covariance_and_directions_witness :
  let ns := NCC.accepted_normals accept_off_center origin ring_neighborhood in
  let res := NCC.run accept_off_center diagonal_solver3 never_degenerate
                     constant_weight origin ring_neighborhood fresh_single in
  snd res <> UNDEFINED /\
  m3_eq (NCC.m_cov (fst res)) (centered_covariance ns) /\
  v3_eq (NCC.m_cog (fst res)) (mean_normal ns) /\
  eigenpair3 (centered_covariance ns) (Base.k1 (NCC.base (fst res)))
             (Base.k1Direction (NCC.base (fst res))) /\
  eigenpair3 (centered_covariance ns) (Base.k2 (NCC.base (fst res)))
             (Base.k2Direction (NCC.base (fst res))).
Proof.
  intros ns res.
  assert (Hdef : snd res <> UNDEFINED) by (vm_compute; discriminate).
  destruct (finalize_covariance_and_directions
              accept_off_center diagonal_solver3 never_degenerate
              constant_weight origin ring_neighborhood fresh_single Hdef)
    as (Hcov & Hcog & _ & _ & _ & Hpairs).
  split; [ exact Hdef | ]. split; [ exact Hcov | ]. split; [ exact Hcog | ].
  apply Hpairs. exact ring_contract.
Defined.









Lemma undefined_below_minimum_witness :
  (length (NCC.accepted_normals accept_off_center origin pair_neighborhood)
   < NCC.min_neighbors)%nat /\
  snd (NCC.run accept_off_center diagonal_solver3 never_degenerate
               constant_weight origin pair_neighborhood fresh_single)
  = UNDEFINED /\
  snd (PNCC.run_pass accept_off_center diagonal_solver2 never_degenerate
                     frame_xy constant_weight origin pair_neighborhood None
                     (fst (PNCC.run_pass accept_off_center diagonal_solver2
                                         never_degenerate frame_xy
                                         constant_weight origin
                                         pair_neighborhood (Some e3)
                                         fresh_projected)))
  = UNDEFINED.
Proof.
  destruct (undefined_below_minimum accept_off_center constant_weight origin
              pair_neighborhood) as (_ & Hsingle & Hsecond).
  assert (Hlen : (length (NCC.accepted_normals accept_off_center origin
                            pair_neighborhood) < NCC.min_neighbors)%nat)
    by (vm_compute; lia).
  split; [ exact Hlen | ]. split.
  - apply Hsingle. exact Hlen.
  - apply Hsecond; [ reflexivity | vm_compute; lia ].
Defined.

Lemma init_keeps_tangent_frame_witness :
  let st1 :=
    fst (PNCC.run_pass accept_off_center diagonal_solver2 never_degenerate
                       frame_xy constant_weight origin ring_neighborhood
                       (Some e3) fresh_projected) in
  let st2 := PNCC.init constant_weight e1 st1 in
  PNCC.m_pass fresh_projected = PNCC.FIRST_PASS /\
  PNCC.m_tframe st1 = frame_xy e3 /\
  PNCC.m_tframe st2 = PNCC.m_tframe st1 /\
  PNCC.m_pass st2 = PNCC.SECOND_PASS.
Proof.
  intros st1 st2.
  assert (Hpass : PNCC.m_pass fresh_projected = PNCC.FIRST_PASS)
    by reflexivity.
  destruct (init_keeps_tangent_frame
              accept_off_center diagonal_solver2 never_degenerate frame_xy
              constant_weight origin e1 ring_neighborhood ring_neighborhood
              e3 None fresh_projected Hpass) as (H1 & H2 & H3 & _).
  split; [ exact Hpass | ]. split; [ exact H1 | ].
  split; [ exact H2 | exact H3 ].
Defined.


(* ================================================================== *)
(** * Further properties of the accessors *)

(** X5: the mean and the Gaussian curvature do not depend on which of the
    two principal curvatures is stored first: with [m_k1] and [m_k2] (and
    the two directions) exchanged, [kMean()] and [GaussianCurvature()] read
    the same values. *)
Theorem mean_and_gaussian_symmetric :
  forall (VectorType : Type) (a b : Q) (u v : VectorType),
    Base.kMean (Base.mkBase b a v u) == Base.kMean (Base.mkBase a b u v) /\
    Base.GaussianCurvature (Base.mkBase b a v u)
    == Base.GaussianCurvature (Base.mkBase a b u v).
Proof.
  intros VectorType a b u v.
  unfold Base.kMean, Base.GaussianCurvature.
  cbn [Base.m_k1 Base.m_k2 sc_div sc_add sc_mul sc_two Q_ScalarOps].
  split; [ field | ring ].
Qed.

(** X6: a default-constructed estimator reads zero everywhere a scalar is
    read: [k1()] and [k2()] are the zero of the scalar type, whatever the
    uninitialised direction vectors hold, and on rationals [kMean()] and
    [GaussianCurvature()] are zero too. *)
Theorem constructed_estimator_is_flat :
  forall (VectorType : Type) (v1 v2 : VectorType),
    (forall (Scalar : Type) (ops : ScalarOps Scalar),
        Base.k1 (@Base.ctor Scalar ops VectorType v1 v2) = sc_zero /\
        Base.k2 (@Base.ctor Scalar ops VectorType v1 v2) = sc_zero) /\
    Base.kMean (@Base.ctor Q _ VectorType v1 v2) == 0 /\
    Base.GaussianCurvature (@Base.ctor Q _ VectorType v1 v2) == 0.
Proof.
  intros VectorType v1 v2. split; [ intros Scalar ops; split; reflexivity | ].
  split; reflexivity.
Qed.

(* ================================================================== *)
(** * Further properties of the iterator *)

(** X7: "not [operator!=]" is an equivalence relation on iterators,
    reflexive, symmetric and transitive, and it holds exactly when
    [operator*] returns the same index for both. *)
Theorem iterator_equality_is_equivalence :
  forall (QueryRef : Type)
         (a b c : @KdTreeIterator.KdTreeRangePointIterator QueryRef),
    KdTreeIterator.operator_neq a a = false /\
    KdTreeIterator.operator_neq a b = KdTreeIterator.operator_neq b a /\
    (KdTreeIterator.operator_neq a b = false ->
     KdTreeIterator.operator_neq b c = false ->
     KdTreeIterator.operator_neq a c = false) /\
    (KdTreeIterator.operator_neq a b = false <->
     KdTreeIterator.operator_deref a = KdTreeIterator.operator_deref b).
Proof.
  intros QueryRef a b c.
  unfold KdTreeIterator.operator_neq, KdTreeIterator.operator_deref.
  split; [ rewrite Z.eqb_refl; reflexivity | ].
  split; [ rewrite (Z.eqb_sym (KdTreeIterator.m_index a)); reflexivity | ].
  rewrite !negb_false_iff, !Z.eqb_eq.
  split; [ intros Hab Hbc; congruence | reflexivity ].
Qed.

Lemma iterator_equality_is_equivalence_witness :
  let a := KdTreeIterator.mkIterator 1%nat 5%Z in
  let b := KdTreeIterator.mkIterator 2%nat 5%Z in
  let c := KdTreeIterator.mkIterator 3%nat 5%Z in
  KdTreeIterator.operator_neq a b = false /\
  KdTreeIterator.operator_neq b c = false /\
  KdTreeIterator.operator_neq a c = false.
Proof.
  intros a b c.
  assert (Hab : KdTreeIterator.operator_neq a b = false) by reflexivity.
  assert (Hbc : KdTreeIterator.operator_neq b c = false) by reflexivity.
  split; [ exact Hab | ]. split; [ exact Hbc | ].
  exact (proj1 (proj2 (proj2 (iterator_equality_is_equivalence nat a b c)))
               Hab Hbc).
Defined.
